(** * qualipy: the pattern-detection filter and the [normalize] utility

    A shallow embedding of [imgfilter/filters/pattern_detection.py] and of
    [normalize] from [imgfilter/utils/utils.py], with the properties of the
    design document stated over it.

    Numbers.  A numpy [float64] is modelled by [npfloat]: the IEEE special
    values NaN, -inf and +inf are kept as they are, and a finite value is an
    exact rational.  Rounding and overflow are not modelled, the literals
    0.7, 0.05 and 0.4 stand for 7/10, 1/20 and 2/5, and zero carries no
    sign.  Everything the filter decides with a comparison against NaN, and
    every division by zero, behaves as numpy has it.

    Exceptions.  A Python call that may raise returns in [exc]. *)

From Stdlib Require Import ZArith QArith Qround Lqa List Bool Arith Lia.
Import ListNotations.

Set Implicit Arguments.

(** ** Python exceptions *)

Inductive exn : Type :=
| ValueError
| TypeError
| OtherError.

Inductive exc (A : Type) : Type :=
| Ok (a : A)
| Raise (e : exn).

Arguments Ok {A} a.
Arguments Raise {A} e.

Definition bind {A B : Type} (c : exc A) (k : A -> exc B) : exc B :=
  match c with
  | Ok a => k a
  | Raise e => Raise e
  end.

Notation "x <- c ;; k" := (bind c (fun x => k))
  (at level 61, c at next level, right associativity).

(** ** numpy float64 values *)

Inductive npfloat : Type :=
| NaN
| NegInf
| Fin (q : Q)
| PosInf.

Declare Scope npfloat_scope.
Delimit Scope npfloat_scope with F.
Bind Scope npfloat_scope with npfloat.

Definition of_Z (z : Z) : npfloat := Fin (inject_Z z).
Definition of_nat (n : nat) : npfloat := of_Z (Z.of_nat n).

Definition zero : npfloat := Fin 0.
Definition one : npfloat := Fin 1.
Definition two : npfloat := Fin 2.

Definition Qlt_bool (x y : Q) : bool := negb (Qle_bool y x).

(** The sign of a rational: [Lt] negative, [Eq] zero, [Gt] positive. *)
Definition Qsign (q : Q) : comparison := (q ?= 0).

Definition fopp (x : npfloat) : npfloat :=
  match x with
  | NaN => NaN
  | NegInf => PosInf
  | Fin q => Fin (- q)
  | PosInf => NegInf
  end.

Definition fadd (x y : npfloat) : npfloat :=
  match x, y with
  | NaN, _ | _, NaN => NaN
  | PosInf, NegInf | NegInf, PosInf => NaN
  | PosInf, _ | _, PosInf => PosInf
  | NegInf, _ | _, NegInf => NegInf
  | Fin a, Fin b => Fin (a + b)
  end.

Definition fsub (x y : npfloat) : npfloat := fadd x (fopp y).

(** An infinity of the sign of [q]; inf * 0 is NaN. *)
Definition inf_times (q : Q) (pos : bool) : npfloat :=
  match Qsign q with
  | Eq => NaN
  | Lt => if pos then NegInf else PosInf
  | Gt => if pos then PosInf else NegInf
  end.

Definition fmul (x y : npfloat) : npfloat :=
  match x, y with
  | NaN, _ | _, NaN => NaN
  | PosInf, PosInf | NegInf, NegInf => PosInf
  | PosInf, NegInf | NegInf, PosInf => NegInf
  | PosInf, Fin q | Fin q, PosInf => inf_times q true
  | NegInf, Fin q | Fin q, NegInf => inf_times q false
  | Fin a, Fin b => Fin (a * b)
  end.

(** numpy's [true_divide]: x/0 is an infinity of the sign of x, 0/0 and
    inf/inf are NaN; a warning is issued and nothing is raised. *)
Definition fdiv (x y : npfloat) : npfloat :=
  match x, y with
  | NaN, _ | _, NaN => NaN
  | (PosInf | NegInf), (PosInf | NegInf) => NaN
  | Fin _, (PosInf | NegInf) => zero
  | PosInf, Fin b => if Qlt_bool b 0 then NegInf else PosInf
  | NegInf, Fin b => if Qlt_bool b 0 then PosInf else NegInf
  | Fin a, Fin b =>
      if Qeq_bool b 0 then inf_times a true else Fin (a / b)
  end.

(** The root of a non-negative rational n/d is isqrt (n * d * 4^64) over
    d * 2^64: exact whenever the root is a rational with that denominator
    (0, 1/2, 3, ...), truncated otherwise.  numpy rounds the root, and the
    square taken of the radius, to the nearest float64 instead, so the two
    can differ on a cell whose own distance sets the radius; the properties
    below hold for every radius and none uses the value of a root that is
    not exact. *)
Definition Qsqrt (q : Q) : Q :=
  let d := Z.pos (Qden q) in
  Qred (Qmake (Z.sqrt (Qnum q * d * 4 ^ 64)) (Qden q * 2 ^ 64)).

Definition fsqrt (x : npfloat) : npfloat :=
  match x with
  | NaN | NegInf => NaN
  | PosInf => PosInf
  | Fin q => if Qlt_bool q 0 then NaN else Fin (Qsqrt q)
  end.

(** [x ** 2]. *)
Definition fsquare (x : npfloat) : npfloat := fmul x x.

(** Comparisons: every comparison with NaN is false. *)
Definition fltb (x y : npfloat) : bool :=
  match x, y with
  | NaN, _ | _, NaN => false
  | _, NegInf => false
  | NegInf, _ => true
  | PosInf, _ => false
  | Fin _, PosInf => true
  | Fin a, Fin b => Qlt_bool a b
  end.

Definition fleb (x y : npfloat) : bool :=
  match x, y with
  | NaN, _ | _, NaN => false
  | NegInf, _ => true
  | _, NegInf => false
  | _, PosInf => true
  | PosInf, _ => false
  | Fin a, Fin b => Qle_bool a b
  end.

Definition fgtb (x y : npfloat) : bool := fltb y x.
Definition fgeb (x y : npfloat) : bool := fleb y x.

Definition feqb (x y : npfloat) : bool :=
  match x, y with
  | NegInf, NegInf | PosInf, PosInf => true
  | Fin a, Fin b => Qeq_bool a b
  | _, _ => false
  end.

Definition is_nan (x : npfloat) : bool :=
  match x with NaN => true | _ => false end.

Definition is_finite (x : npfloat) : bool :=
  match x with Fin _ => true | _ => false end.

Notation "x + y" := (fadd x y) : npfloat_scope.
Notation "x - y" := (fsub x y) : npfloat_scope.
Notation "x * y" := (fmul x y) : npfloat_scope.
Notation "x / y" := (fdiv x y) : npfloat_scope.
Notation "x <? y" := (fltb x y) : npfloat_scope.
Notation "x <=? y" := (fleb x y) : npfloat_scope.
Notation "x >? y" := (fgtb x y) : npfloat_scope.
Notation "x >=? y" := (fgeb x y) : npfloat_scope.

(** Two values denote the same number: rationals are compared by value. *)
Definition feq (x y : npfloat) : Prop :=
  match x, y with
  | NaN, NaN | NegInf, NegInf | PosInf, PosInf => True
  | Fin a, Fin b => a == b
  | _, _ => False
  end.

Infix "=~" := feq (at level 70, no associativity).

(** A number of the closed interval [0, 1]; NaN and the infinities are not. *)
Definition in_unit_interval (x : npfloat) : Prop :=
  match x with
  | Fin q => 0 <= q <= 1
  | _ => False
  end.

(** ** Two-dimensional arrays, row-major *)

Record ndarray (A : Type) : Type := mk_ndarray {
  height : nat;
  width : nat;
  data : list A
}.

Definition shape {A} (m : ndarray A) : nat * nat := (height m, width m).
Definition size {A} (m : ndarray A) : nat := height m * width m.
Definition well_shaped {A} (m : ndarray A) : Prop := length (data m) = size m.

(** The cell of row [y] and column [x]. *)
Definition cell {A} (m : ndarray A) (y x : nat) (d : A) : A :=
  nth (y * width m + x) (data m) d.

Definition arr_map {A B} (f : A -> B) (m : ndarray A) : ndarray B :=
  mk_ndarray (height m) (width m) (map f (data m)).

Definition arr_map2 {A B C} (f : A -> B -> C) (a : ndarray A) (b : ndarray B)
  : ndarray C :=
  mk_ndarray (height a) (width a)
    (map (fun p => f (fst p) (snd p)) (combine (data a) (data b))).

(** [a[mask]]: the cells of [a] at the true positions of [mask], in
    row-major order, as a one-dimensional sequence. *)
Definition select {A} (a : ndarray A) (mask : ndarray bool) : list A :=
  map fst (filter snd (combine (data a) (data mask))).

(** [numpy.sum] of a boolean array: the number of true cells. *)
Definition np_sum (m : ndarray bool) : Z :=
  Z.of_nat (count_occ bool_dec (data m) true).

(** [numpy.mean] of a sequence: the sum over the count, NaN when empty. *)
Definition np_mean (xs : list npfloat) : npfloat :=
  (fold_left fadd xs zero / of_nat (length xs))%F.

(** [numpy.mgrid[:height, :width]]: the row index and the column index of
    every cell. *)
Definition mgrid (h w : nat) : ndarray nat * ndarray nat :=
  (mk_ndarray h w (flat_map (fun y => repeat y w) (seq 0 h)),
   mk_ndarray h w (flat_map (fun _ => seq 0 w) (seq 0 h))).

(** ** pattern_detection.py *)

(** [return (xx - width / 2.0) ** 2 + (yy - height / 2.0) ** 2]; the
    divisor is the literal 2.0, the index arrays are integer arrays that
    the subtraction converts to float64. *)
Definition distances_from_center (height width : nat) : ndarray npfloat :=
  let '(yy, xx) := mgrid height width in
  arr_map2 fadd
    (arr_map fsquare (arr_map (fun x => of_nat x - of_nat width / two)%F xx))
    (arr_map fsquare (arr_map (fun y => of_nat y - of_nat height / two)%F yy)).

(** The helpers that [pattern_detection.py] takes from
    [analyzers/common/statistic_common.py], a module that is not part of the
    sources at hand.  They are calls into unknown Python code, so each may
    raise. *)
Class statistic_common : Type := {
  remove_anomalies : list npfloat -> npfloat -> exc (list npfloat);
  get_max_values : list npfloat -> nat -> exc (list npfloat);
  linear_normalize : npfloat -> npfloat -> npfloat -> exc npfloat
}.

Definition intensity_threshold : npfloat := Fin (7 # 10).
Definition contamination : npfloat := Fin (4 # 10).
Definition top_k : nat := 20.
Definition low_density : npfloat := Fin (5 # 100).
Definition high_density : npfloat := Fin (4 # 10).

(** [mask = magnitude_spectrum > 0.7] *)
Definition high_mask (magnitude_spectrum : ndarray npfloat) : ndarray bool :=
  arr_map (fun v => v >? intensity_threshold)%F magnitude_spectrum.

(** [numpy.sqrt(circle[mask].flatten())] *)
Definition distance_set (circle : ndarray npfloat) (mask : ndarray bool)
  : list npfloat :=
  map fsqrt (select circle mask).

(** [donut = circle >= max_distance_avg ** 2] *)
Definition donut (circle : ndarray npfloat) (max_distance_avg : npfloat)
  : ndarray bool :=
  arr_map (fun c => c >=? fsquare max_distance_avg)%F circle.

(** [intense_points = numpy.sum(mask & numpy.logical_not(donut))] *)
Definition intense_points (mask dnt : ndarray bool) : Z :=
  np_sum (arr_map2 andb mask (arr_map negb dnt)).

(** [all_points = magnitude_spectrum.size - numpy.sum(donut)] *)
Definition all_points (magnitude_spectrum : ndarray npfloat)
    (dnt : ndarray bool) : Z :=
  (Z.of_nat (size magnitude_spectrum) - np_sum dnt)%Z.

(** [intense_points / float(all_points)]: the left operand is the numpy
    integer that [numpy.sum] returned, so the division is numpy's and a zero
    divisor gives NaN or an infinity, not a [ZeroDivisionError]. *)
Definition density (magnitude_spectrum : ndarray npfloat)
    (max_distance_avg : npfloat) : npfloat :=
  let circle :=
    distances_from_center (height magnitude_spectrum) (width magnitude_spectrum) in
  let mask := high_mask magnitude_spectrum in
  let dnt := donut circle max_distance_avg in
  (of_Z (intense_points mask dnt) / of_Z (all_points magnitude_spectrum dnt))%F.

Section PatternDetection.

Context {helpers : statistic_common}.

(** The radius stage: lines 54 to 58 of [pattern_recognition]. *)
Definition max_distance_avg (magnitude_spectrum : ndarray npfloat)
  : exc npfloat :=
  let circle :=
    distances_from_center (height magnitude_spectrum) (width magnitude_spectrum) in
  let mask := high_mask magnitude_spectrum in
  let all_distances := distance_set circle mask in
  all_distances <- remove_anomalies all_distances contamination ;;
  max_distances <- get_max_values all_distances top_k ;;
  Ok (np_mean max_distances).

Definition pattern_recognition (magnitude_spectrum : ndarray npfloat)
  : exc npfloat :=
  radius <- max_distance_avg magnitude_spectrum ;;
  Ok (density magnitude_spectrum radius).

Definition scaled_prediction (prediction : npfloat) : exc npfloat :=
  if (prediction <? low_density)%F then Ok one
  else if (prediction >? high_density)%F then Ok zero
  else linear_normalize prediction zero high_density.

(** [PatternDetection.run], from the magnitude spectrum on. *)
Definition score (magnitude_spectrum : ndarray npfloat) : exc npfloat :=
  prediction <- pattern_recognition magnitude_spectrum ;;
  scaled_prediction prediction.

End PatternDetection.

(** [linear_normalize] sends a density between 0.05 and 0.4 to a number of
    [0, 1]. *)
Definition interpolates_into_unit_interval `{statistic_common} : Prop :=
  forall p,
    (low_density <=? p)%F = true -> (p <=? high_density)%F = true ->
    exists v, linear_normalize p zero high_density = Ok v /\ in_unit_interval v.

(** ** utils.py *)

(** numpy's minimum and maximum of two values: NaN wins. *)
Definition fmin (a b : npfloat) : npfloat :=
  if is_nan a then a else if is_nan b then b
  else if (b <? a)%F then b else a.

Definition fmax (a b : npfloat) : npfloat :=
  if is_nan a then a else if is_nan b then b
  else if (a <? b)%F then b else a.

(** [numpy.min] and [numpy.max]: a zero-size array has no minimum and the
    call raises [ValueError]. *)
Definition np_min (arr : list npfloat) : exc npfloat :=
  match arr with
  | [] => Raise ValueError
  | x :: xs => Ok (fold_left fmin xs x)
  end.

Definition np_max (arr : list npfloat) : exc npfloat :=
  match arr with
  | [] => Raise ValueError
  | x :: xs => Ok (fold_left fmax xs x)
  end.

(** [numpy.ones(n)] *)
Definition np_ones (n : nat) : list npfloat := repeat one n.

(** [normalize], on a one-dimensional array. *)
Definition normalize (arr : list npfloat) : exc (list npfloat) :=
  arr_min <- np_min arr ;;
  arr_max <- np_max arr ;;
  if feqb arr_min arr_max then Ok (np_ones (length arr))
  else Ok (map (fun v => (v - arr_min) / (arr_max - arr_min))%F arr).

(** ** statistic_common.py, from the design document

    The module itself is missing; the three helpers are written here from
    what the design document says of them, to have an instance of
    [statistic_common] to run the filter with. *)

Module Modelled.

Fixpoint insert_asc (x : npfloat) (l : list npfloat) : list npfloat :=
  match l with
  | [] => [x]
  | y :: l' => if (x <=? y)%F then x :: l else y :: insert_asc x l'
  end.

Definition sort_asc (l : list npfloat) : list npfloat :=
  fold_right insert_asc [] l.

Definition fsum (l : list npfloat) : npfloat := fold_left fadd l zero.

Definition fabs (x : npfloat) : npfloat :=
  if (x <? zero)%F then fopp x else x.

(** Modelled from the spec: [get_max_values] of statistic_common.py is
    missing.  Section 4.4: select the K largest values, or all of them if
    there are fewer than K. *)
Definition get_max_values (values : list npfloat) (n : nat)
  : exc (list npfloat) :=
  Ok (firstn n (rev (sort_asc values))).

(** Modelled from the spec: [linear_normalize] of statistic_common.py is
    missing.  Section 4.6: the general utility normalizes a value into
    [low, high] linearly, and the caller is responsible for the sense of
    increase or decrease; so [low] goes to 0, [high] to 1, and nothing is
    inverted here. *)
Definition linear_normalize (value low high : npfloat) : exc npfloat :=
  Ok ((value - low) / (high - low))%F.

(** The local outlier factor of the points of a sequence, with
    neighbourhoods of [k] points: k-distance, reachability distance, local
    reachability density, and the ratio of the neighbours' densities to
    the point's own. *)
Section LocalOutlierFactor.

Variable k : nat.
Variable points : list npfloat.

Definition point (i : nat) : npfloat := nth i points NaN.

Definition dist (i j : nat) : npfloat := fabs (point i - point j).

Definition others (i : nat) : list nat :=
  filter (fun j => negb (j =? i)) (seq 0 (length points)).

Definition k_distance (i : nat) : npfloat :=
  nth (k - 1) (sort_asc (map (dist i) (others i))) NaN.

Definition neighbours (i : nat) : list nat :=
  filter (fun j => dist i j <=? k_distance i)%F (others i).

Definition reach_dist (i j : nat) : npfloat :=
  fmax (k_distance j) (dist i j).

Definition lrd (i : nat) : npfloat :=
  (of_nat (length (neighbours i))
   / fsum (map (reach_dist i) (neighbours i)))%F.

Definition lof (i : nat) : npfloat :=
  (fsum (map (fun j => lrd j / lrd i) (neighbours i))
   / of_nat (length (neighbours i)))%F.

(** The number of points that come before [i] when the points are
    ranked by decreasing factor, ties by position. *)
Definition rank (i : nat) : nat :=
  length
    (filter
       (fun j => (lof j >? lof i)%F || (feqb (lof j) (lof i) && (j <? i)))
       (seq 0 (length points))).

(** At most the fraction [contamination] of the points is excised. *)
Definition budget (contamination : npfloat) : nat :=
  match (contamination * of_nat (length points))%F with
  | Fin q => Z.to_nat (Qfloor q)
  | _ => 0
  end.

Definition outlier (contamination : npfloat) (i : nat) : bool :=
  (lof i >? one)%F && (rank i <? budget contamination).

End LocalOutlierFactor.

(** Modelled from the spec: [remove_anomalies] of statistic_common.py is
    missing.  Section 4.3: the points whose local density is anomalously
    low against their neighbours' are removed, up to the contamination
    fraction of the set; the result is a subsequence of the input that
    keeps the inliers; an empty input gives an empty output, and an input
    smaller than the neighbourhood is returned unchanged.  The
    neighbourhood size [k] is left open by the document. *)
Definition remove_anomalies (k : nat) (data : list npfloat)
    (contamination : npfloat) : exc (list npfloat) :=
  if length data <=? k then Ok data
  else
    Ok (map fst
          (filter (fun p => negb (outlier k data contamination (snd p)))
             (combine data (seq 0 (length data))))).

Definition helpers (k : nat) : statistic_common :=
  Build_statistic_common (remove_anomalies k) get_max_values linear_normalize.

End Modelled.

(** A sequence obtained from another by dropping elements. *)
Inductive subseq {A : Type} : list A -> list A -> Prop :=
| subseq_nil : subseq [] []
| subseq_skip x l1 l2 : subseq l1 l2 -> subseq l1 (x :: l2)
| subseq_cons x l1 l2 : subseq l1 l2 -> subseq (x :: l1) (x :: l2).

(** ** The density stage in the words of the design document

    Section 4.5: a cell is inner when its distance-field value is below the
    squared radius and outer otherwise; IntensePoints counts the cells that
    are both high-intensity and inner, AllPoints is the total number of
    cells minus the number of outer cells. *)

Definition inner_cells (circle : ndarray npfloat) (radius : npfloat)
  : ndarray bool :=
  arr_map (fun c => c <? fsquare radius)%F circle.

Definition outer_cells (circle : ndarray npfloat) (radius : npfloat)
  : ndarray bool :=
  arr_map negb (inner_cells circle radius).

Definition IntensePoints (magnitude_spectrum : ndarray npfloat)
    (radius : npfloat) : Z :=
  let circle :=
    distances_from_center (height magnitude_spectrum) (width magnitude_spectrum) in
  np_sum (arr_map2 andb (high_mask magnitude_spectrum) (inner_cells circle radius)).

Definition AllPoints (magnitude_spectrum : ndarray npfloat)
    (radius : npfloat) : Z :=
  let circle :=
    distances_from_center (height magnitude_spectrum) (width magnitude_spectrum) in
  (Z.of_nat (size magnitude_spectrum) - np_sum (outer_cells circle radius))%Z.

Definition raw_density_spec (magnitude_spectrum : ndarray npfloat)
    (radius : npfloat) : npfloat :=
  (of_Z (IntensePoints magnitude_spectrum radius)
   / of_Z (AllPoints magnitude_spectrum radius))%F.

(** No cell of the spectrum exceeds the intensity threshold. *)
Definition no_high_cell (magnitude_spectrum : ndarray npfloat) : Prop :=
  Forall (fun v => (v >? intensity_threshold)%F = false)
    (data magnitude_spectrum).

(** ** Sample spectra *)

Definition spectrum_of (h w : nat) (cells : list Q) : ndarray npfloat :=
  mk_ndarray h w (map Fin cells).

(** No cell at all. *)
Definition empty_spectrum : ndarray npfloat := spectrum_of 0 0 [].

(** One cell, dark. *)
Definition dark_spectrum : ndarray npfloat := spectrum_of 1 1 [0].

(** 2 x 2, dark but for the cell of row 1 and column 1, which sits on the
    center (1.0, 1.0) of the array. *)
Definition center_spectrum : ndarray npfloat := spectrum_of 2 2 [0; 0; 0; 1].

(** The modelled helpers with neighbourhoods of two points. *)
Definition sample_helpers : statistic_common := Modelled.helpers 2.

(** 4 x 4, dark but for the cell of row 0 and column 2, at distance 2 from
    the center (2.0, 2.0): the radius is 2 and nine cells are inner. *)
Definition offset_spectrum : ndarray npfloat :=
  spectrum_of 4 4 [0; 0; 1; 0;  0; 0; 0; 0;  0; 0; 0; 0;  0; 0; 0; 0].

(** 3 x 3, every cell at full intensity. *)
Definition bright_spectrum : ndarray npfloat :=
  spectrum_of 3 3 [1; 1; 1; 1; 1; 1; 1; 1; 1].

(** * Properties *)

Local Open Scope nat_scope.

(** ** Arrays and the distance field *)

Section RowMajor.

Context {A : Type}.
Variable row : nat -> list A.
Variable w : nat.
Hypothesis row_length : forall y, length (row y) = w.

Lemma length_rows (a h : nat) :
  length (flat_map row (seq a h)) = h * w.
Proof.
  revert a; induction h as [|h IH]; intros a; simpl; [reflexivity|].
  now rewrite length_app, row_length, IH.
Qed.

Lemma nth_rows (a h y x : nat) (d : A) :
  y < h -> x < w ->
  nth (y * w + x) (flat_map row (seq a h)) d = nth x (row (a + y)) d.
Proof.
  revert a y; induction h as [|h IH]; intros a y Hy Hx; [lia|].
  simpl. destruct y as [|y].
  - rewrite app_nth1 by (rewrite row_length; lia).
    now rewrite Nat.add_0_r.
  - rewrite app_nth2 by (rewrite row_length; simpl; lia).
    rewrite row_length.
    replace (S y * w + x - w) with (y * w + x) by (simpl; lia).
    rewrite IH by lia. f_equal. f_equal. lia.
Qed.

End RowMajor.

Lemma mgrid_rows_length (h w : nat) :
  length (data (fst (mgrid h w))) = h * w.
Proof. apply length_rows. intros; apply repeat_length. Qed.

Lemma mgrid_cols_length (h w : nat) :
  length (data (snd (mgrid h w))) = h * w.
Proof. apply length_rows. intros; apply length_seq. Qed.

Lemma mgrid_rows_cell (h w y x : nat) :
  y < h -> x < w -> cell (fst (mgrid h w)) y x 0 = y.
Proof.
  intros Hy Hx. unfold cell; simpl.
  rewrite (@nth_rows _ (fun y => repeat y w) w) by (auto using repeat_length).
  now rewrite nth_repeat_lt.
Qed.

Lemma mgrid_cols_cell (h w y x : nat) :
  y < h -> x < w -> cell (snd (mgrid h w)) y x 0 = x.
Proof.
  intros Hy Hx. unfold cell; simpl.
  rewrite (@nth_rows _ (fun _ => seq 0 w) w) by (auto using length_seq).
  now rewrite seq_nth.
Qed.

Lemma distances_length (h w : nat) :
  length (data (distances_from_center h w)) = h * w.
Proof.
  unfold distances_from_center; simpl.
  rewrite length_map, length_combine, !length_map.
  change (Nat.min (length (data (snd (mgrid h w))))
                  (length (data (fst (mgrid h w)))) = h * w).
  rewrite mgrid_rows_length, mgrid_cols_length. apply Nat.min_id.
Qed.

(** The half of a dimension is the exact half, odd dimensions included. *)
Lemma half_exact (n : nat) :
  (of_nat n / two)%F = Fin (inject_Z (Z.of_nat n) / 2)%Q.
Proof. reflexivity. Qed.

Lemma distances_finite (h w : nat) :
  Forall (fun c => is_finite c = true) (data (distances_from_center h w)).
Proof.
  unfold distances_from_center; simpl.
  apply Forall_forall. intros c Hc.
  apply in_map_iff in Hc. destruct Hc as [[a b] [<- Hin]].
  pose proof (in_combine_l _ _ _ _ Hin) as Ha.
  pose proof (in_combine_r _ _ _ _ Hin) as Hb.
  rewrite map_map in Ha, Hb.
  apply in_map_iff in Ha. destruct Ha as [x [<- _]].
  apply in_map_iff in Hb. destruct Hb as [y [<- _]].
  reflexivity.
Qed.

Lemma nth_map_in {A B : Type} (f : A -> B) (l : list A) (n : nat) (d : A) (d' : B) :
  n < length l -> nth n (map f l) d' = f (nth n l d).
Proof.
  intros Hn. rewrite (nth_indep _ d' (f d)) by now rewrite length_map.
  apply map_nth.
Qed.

Lemma nth_combine_in {A B : Type} (l : list A) (l' : list B) (n : nat)
    (a : A) (b : B) (d : A * B) :
  n < length l -> length l = length l' ->
  nth n (combine l l') d = (nth n l a, nth n l' b).
Proof.
  intros Hn Hlen.
  rewrite (nth_indep _ d (a, b)) by (rewrite length_combine; lia).
  now apply combine_nth.
Qed.

Lemma cell_index (h w y x : nat) : y < h -> x < w -> y * w + x < h * w.
Proof. intros Hy Hx. nia. Qed.

(** C5. For all dimensions H and W, [distances_from_center H W] is an H x W
    array, and its cell at row y and column x is
    (x - W/2.0)^2 + (y - H/2.0)^2, where W/2.0 and H/2.0 are the exact
    halves of the dimensions, not the integer quotients. *)
Theorem distances_from_center_cells (h w y x : nat) :
  y < h -> x < w ->
  shape (distances_from_center h w) = (h, w)
  /\ well_shaped (distances_from_center h w)
  /\ cell (distances_from_center h w) y x NaN
     = (fsquare (of_nat x - of_nat w / two)
        + fsquare (of_nat y - of_nat h / two))%F
  /\ (of_nat w / two)%F = Fin (inject_Z (Z.of_nat w) / 2)%Q
  /\ (of_nat h / two)%F = Fin (inject_Z (Z.of_nat h) / 2)%Q.
Proof.
  intros Hy Hx.
  split; [reflexivity|].
  split; [apply distances_length|].
  split; [|split; apply half_exact].
  pose proof (cell_index Hy Hx) as Hi.
  pose proof (mgrid_rows_cell Hy Hx) as Hr.
  pose proof (mgrid_cols_cell Hy Hx) as Hc.
  pose proof (mgrid_rows_length h w) as Lr.
  pose proof (mgrid_cols_length h w) as Lc.
  unfold cell in *. unfold distances_from_center.
  destruct (mgrid h w) as [yy xx] eqn:E.
  assert (width xx = w /\ width yy = w) as [Wx Wy]
    by (inversion E; subst; now split).
  simpl in *. rewrite Wx in *. rewrite Wy in *.
  rewrite (nth_map_in _ _ (NaN, NaN)) by (rewrite length_combine, !length_map; lia).
  rewrite (nth_combine_in _ _ NaN NaN) by (rewrite !length_map; lia).
  simpl.
  rewrite !(nth_map_in _ _ NaN) by (rewrite !length_map; lia).
  rewrite !(nth_map_in _ _ 0) by lia.
  now rewrite Hr, Hc.
Qed.

Lemma distances_from_center_cells_witness :
  cell (distances_from_center 3 3) 1 1 NaN
  = (fsquare (of_nat 1 - of_nat 3 / two)
     + fsquare (of_nat 1 - of_nat 3 / two))%F.
Proof.
  apply (distances_from_center_cells (h := 3) (w := 3) (y := 1) (x := 1)); lia.
Defined.

(** ** The density stage *)

Lemma count_inner_intense (a b : list bool) :
  count_occ bool_dec
    (map (fun p => fst p && snd p) (combine a (map negb b))) true
  + count_occ bool_dec b true <= length b.
Proof.
  revert a; induction b as [|y b IH]; intros a.
  - destruct a; simpl; lia.
  - destruct a as [|x a].
    + pose proof (count_occ_bound bool_dec true (y :: b)). simpl in *. lia.
    + specialize (IH a). destruct x, y; simpl in *; lia.
Qed.

Lemma donut_length (circle : ndarray npfloat) (r : npfloat) :
  length (data (donut circle r)) = length (data circle).
Proof. apply length_map. Qed.

Lemma intense_points_nonneg (mask dnt : ndarray bool) :
  (0 <= intense_points mask dnt)%Z.
Proof. apply Nat2Z.is_nonneg. Qed.

(** The cells that [intense_points] counts are among those that
    [all_points] counts. *)
Lemma intense_le_all (m : ndarray npfloat) (r : npfloat) :
  let dnt := donut (distances_from_center (height m) (width m)) r in
  (intense_points (high_mask m) dnt <= all_points m dnt)%Z.
Proof.
  intros dnt. unfold intense_points, all_points, np_sum, arr_map2. simpl.
  pose proof (count_inner_intense (data (high_mask m)) (data dnt)) as Hc.
  assert (length (data dnt) = size m) as Hl.
  { unfold dnt. rewrite donut_length. apply distances_length. }
  rewrite Hl in Hc. unfold arr_map in Hc |- *. simpl in Hc |- *. lia.
Qed.

Lemma inject_Z_nonzero (a : Z) : (0 < a)%Z -> Qeq_bool (inject_Z a) 0 = false.
Proof.
  intros Ha. destruct (Qeq_bool (inject_Z a) 0) eqn:E; [|reflexivity].
  apply Qeq_bool_eq in E. unfold Qeq in E. simpl in E. lia.
Qed.

Lemma ratio_in_unit_interval (i a : Z) :
  (0 <= i <= a)%Z -> (0 < a)%Z -> in_unit_interval (of_Z i / of_Z a)%F.
Proof.
  intros [Hi Hia] Ha. unfold of_Z, fdiv.
  rewrite inject_Z_nonzero by assumption. simpl.
  assert (0 < inject_Z a)%Q as Hq by (rewrite (Zlt_Qlt 0 a) in Ha; exact Ha).
  split.
  - apply Qle_shift_div_l; [exact Hq|].
    rewrite Qmult_0_l. rewrite (Zle_Qle 0 i) in Hi. exact Hi.
  - apply Qle_shift_div_r; [exact Hq|].
    rewrite Qmult_1_l. rewrite (Zle_Qle i a) in Hia. exact Hia.
Qed.

(** C10. For every magnitude spectrum and every estimated radius,
    intense_points is at most all_points (and is not negative); whenever
    all_points is positive the raw density lies in [0, 1]. *)
Theorem intense_points_le_all_points (m : ndarray npfloat) (r : npfloat) :
  let dnt := donut (distances_from_center (height m) (width m)) r in
  (0 <= intense_points (high_mask m) dnt <= all_points m dnt)%Z
  /\ ((0 < all_points m dnt)%Z -> in_unit_interval (density m r)).
Proof.
  intros dnt. split.
  - split; [apply intense_points_nonneg | apply intense_le_all].
  - intros Ha. unfold density. apply ratio_in_unit_interval; [|exact Ha].
    split; [apply intense_points_nonneg | apply intense_le_all].
Qed.

Lemma intense_points_le_all_points_witness :
  (0 < all_points bright_spectrum
         (donut (distances_from_center 3 3) one))%Z
  /\ in_unit_interval (density bright_spectrum one).
Proof.
  split; [reflexivity|].
  apply (intense_points_le_all_points bright_spectrum one). reflexivity.
Defined.

(** ** The density stage against the design document *)

Lemma not_geb_ltb (c t : npfloat) :
  is_nan c = false -> is_nan t = false -> negb (c >=? t)%F = (c <? t)%F.
Proof. destruct c, t; simpl; intros; try discriminate; reflexivity. Qed.

Lemma not_ltb_geb (c t : npfloat) :
  is_nan c = false -> is_nan t = false -> negb (c <? t)%F = (c >=? t)%F.
Proof.
  intros Hc Ht. rewrite <- (not_geb_ltb c t Hc Ht). apply negb_involutive.
Qed.

Lemma finite_not_nan (c : npfloat) : is_finite c = true -> is_nan c = false.
Proof. destruct c; simpl; intros; try discriminate; reflexivity. Qed.

Lemma fsquare_not_nan (r : npfloat) : is_nan r = false -> is_nan (fsquare r) = false.
Proof. destruct r; simpl; intros; try discriminate; reflexivity. Qed.

Lemma count_negb (l : list bool) :
  count_occ bool_dec (map negb l) true + count_occ bool_dec l true = length l.
Proof. induction l as [|[] l IH]; simpl in *; lia. Qed.

Section AgainstTheDocument.

Variable circle : ndarray npfloat.
Variable r : npfloat.
Hypothesis circle_finite : Forall (fun c => is_finite c = true) (data circle).
Hypothesis radius_is_a_number : is_nan r = false.

Lemma inner_is_not_donut :
  data (inner_cells circle r) = map negb (data (donut circle r)).
Proof.
  unfold inner_cells, donut, arr_map; simpl. rewrite map_map.
  apply map_ext_in. intros c Hc. symmetry. apply not_geb_ltb.
  - apply finite_not_nan. rewrite Forall_forall in circle_finite.
    now apply circle_finite.
  - now apply fsquare_not_nan.
Qed.

Lemma outer_is_donut :
  data (outer_cells circle r) = data (donut circle r).
Proof.
  unfold outer_cells.
  change (data (arr_map negb (inner_cells circle r)))
    with (map negb (data (inner_cells circle r))).
  rewrite inner_is_not_donut, map_map.
  rewrite <- (map_id (data (donut circle r))) at 2.
  apply map_ext. intros b. apply negb_involutive.
Qed.

End AgainstTheDocument.

Lemma density_is_raw_density_spec (m : ndarray npfloat) (r : npfloat) :
  is_nan r = false -> density m r = raw_density_spec m r.
Proof.
  intros Hr.
  pose proof (distances_finite (height m) (width m)) as Hf.
  unfold density, raw_density_spec, IntensePoints, AllPoints.
  unfold intense_points, all_points, np_sum, arr_map2.
  cbn [data].
  change (data (arr_map negb (donut (distances_from_center (height m) (width m)) r)))
    with (map negb (data (donut (distances_from_center (height m) (width m)) r))).
  now rewrite (@outer_is_donut _ _ Hf Hr), (@inner_is_not_donut _ _ Hf Hr).
Qed.

Lemma AllPoints_counts_inner (m : ndarray npfloat) (r : npfloat) :
  is_nan r = false ->
  AllPoints m r
  = np_sum (inner_cells (distances_from_center (height m) (width m)) r).
Proof.
  intros Hr.
  pose proof (distances_finite (height m) (width m)) as Hf.
  unfold AllPoints, np_sum.
  rewrite (@outer_is_donut _ _ Hf Hr), (@inner_is_not_donut _ _ Hf Hr).
  pose proof (count_negb (data (donut (distances_from_center (height m) (width m)) r))) as Hc.
  rewrite donut_length, distances_length in Hc. fold (size m) in Hc. lia.
Qed.

Lemma donut_nan (circle : ndarray npfloat) :
  Forall (fun b => b = false) (data (donut circle NaN)).
Proof.
  unfold donut, arr_map; simpl. apply Forall_forall.
  intros b Hb. apply in_map_iff in Hb. destruct Hb as [c [<- _]].
  now destruct c.
Qed.

Lemma pattern_recognition_radius `{statistic_common}
    (m : ndarray npfloat) (r : npfloat) :
  max_distance_avg m = Ok r -> pattern_recognition m = Ok (density m r).
Proof. intros Hr. unfold pattern_recognition. now rewrite Hr. Qed.

(** C4, amended. Once the radius stage has returned a radius that is not
    NaN, [pattern_recognition] returns IntensePoints / AllPoints, where a
    cell is inner iff its distance-field value is below the squared radius,
    IntensePoints counts the cells that are high-intensity and inner, and
    AllPoints, the cell count minus the outer count, is the number of inner
    cells.  With a NaN radius the comparison of the code holds nowhere and
    no cell is outer. *)
Theorem pattern_recognition_raw_density `{statistic_common}
    (m : ndarray npfloat) (r : npfloat) :
  max_distance_avg m = Ok r ->
  (is_nan r = false ->
   pattern_recognition m = Ok (raw_density_spec m r)
   /\ AllPoints m r
      = np_sum (inner_cells (distances_from_center (height m) (width m)) r))
  /\ (is_nan r = true ->
      Forall (fun b => b = false)
        (data (donut (distances_from_center (height m) (width m)) r))).
Proof.
  intros Hm. split.
  - intros Hr. split.
    + rewrite (pattern_recognition_radius _ Hm).
      now rewrite density_is_raw_density_spec.
    + now apply AllPoints_counts_inner.
  - intros Hr. destruct r; try discriminate. apply donut_nan.
Qed.

Lemma pattern_recognition_raw_density_witness :
  @pattern_recognition sample_helpers center_spectrum
  = Ok (raw_density_spec center_spectrum zero).
Proof.
  apply (@pattern_recognition_raw_density sample_helpers center_spectrum zero);
    reflexivity.
Defined.

(** C4 as worded fails on a spectrum without high-intensity cell: the
    radius is NaN, no cell is below it, and the quotient of the document is
    0/0, while the code divides 0 by the cell count. *)
Lemma raw_density_spec_nan_radius :
  ~ (forall r,
        @max_distance_avg sample_helpers dark_spectrum = Ok r ->
        @pattern_recognition sample_helpers dark_spectrum
        = Ok (raw_density_spec dark_spectrum r)).
Proof.
  intros Hclaim. specialize (Hclaim NaN eq_refl).
  vm_compute in Hclaim. discriminate.
Qed.

(** ** Spectra without high-intensity cell *)

Lemma count_none (l : list bool) :
  Forall (fun b => b = false) l -> count_occ bool_dec l true = 0.
Proof.
  induction 1 as [|b l Hb _ IH]; [reflexivity|]. subst b. simpl. exact IH.
Qed.

Lemma select_none {A : Type} (a : ndarray A) (mask : ndarray bool) :
  Forall (fun b => b = false) (data mask) -> select a mask = [].
Proof.
  unfold select. generalize (data a) as l. generalize (data mask) as bs.
  intros bs l Hb. revert l.
  induction Hb as [|b bs Hb _ IH]; intros [|x l]; simpl; try reflexivity.
  subst b. simpl. apply IH.
Qed.

Lemma high_mask_none (m : ndarray npfloat) :
  no_high_cell m -> Forall (fun b => b = false) (data (high_mask m)).
Proof.
  unfold no_high_cell, high_mask, arr_map; simpl.
  intros Hm. apply Forall_map. exact Hm.
Qed.

Lemma intense_points_none (mask dnt : ndarray bool) :
  Forall (fun b => b = false) (data mask) -> intense_points mask dnt = 0%Z.
Proof.
  intros Hm. unfold intense_points, np_sum, arr_map2; simpl.
  rewrite count_none; [reflexivity|].
  apply Forall_forall. intros b Hb.
  apply in_map_iff in Hb. destruct Hb as [[x y] [<- Hin]].
  apply in_combine_l in Hin. rewrite Forall_forall in Hm.
  simpl. now rewrite (Hm x Hin).
Qed.

Lemma all_points_no_donut (m : ndarray npfloat) (dnt : ndarray bool) :
  Forall (fun b => b = false) (data dnt) ->
  all_points m dnt = Z.of_nat (size m).
Proof.
  intros Hd. unfold all_points, np_sum. rewrite count_none by exact Hd.
  simpl. lia.
Qed.

Section DarkSpectrum.

Context {helpers : statistic_common}.
Variable m : ndarray npfloat.
Hypothesis dark : no_high_cell m.
Hypothesis remove_anomalies_empty : remove_anomalies [] contamination = Ok [].
Hypothesis get_max_values_empty : get_max_values [] top_k = Ok [].

Lemma dark_distance_set :
  distance_set (distances_from_center (height m) (width m)) (high_mask m) = [].
Proof.
  unfold distance_set. rewrite select_none; [reflexivity|].
  now apply high_mask_none.
Qed.

Lemma dark_radius : max_distance_avg m = Ok NaN.
Proof.
  unfold max_distance_avg. rewrite dark_distance_set.
  rewrite remove_anomalies_empty. simpl.
  rewrite get_max_values_empty. reflexivity.
Qed.

Lemma dark_density :
  pattern_recognition m = Ok (of_Z 0 / of_nat (size m))%F.
Proof.
  rewrite (pattern_recognition_radius _ dark_radius). unfold density.
  rewrite intense_points_none by now apply high_mask_none.
  rewrite all_points_no_donut by apply donut_nan.
  reflexivity.
Qed.

End DarkSpectrum.

Lemma zero_over_count (n : nat) :
  0 < n -> exists q, (of_Z 0 / of_nat n)%F = Fin q /\ (q == 0)%Q.
Proof.
  intros Hn. unfold of_nat, of_Z, fdiv.
  rewrite inject_Z_nonzero by lia.
  eexists; split; [reflexivity|]. unfold Qdiv. apply Qmult_0_l.
Qed.

Lemma scaled_prediction_low `{statistic_common} (q : Q) :
  (q < 5 # 100)%Q -> scaled_prediction (Fin q) = Ok one.
Proof.
  intros Hq. unfold scaled_prediction, low_density. simpl.
  unfold Qlt_bool.
  destruct (Qle_bool (5 # 100) q) eqn:E; [|reflexivity].
  apply Qle_bool_imp_le in E. lra.
Qed.

(** C9, amended. If the magnitude spectrum has at least one cell and none
    of its cells exceeds 0.7, and the anomaly-removal and top-K helpers map
    the empty sequence to the empty sequence, then the mean of the empty
    sequence is NaN, the donut mask is false everywhere, and
    [pattern_recognition] returns a raw density equal to 0.0, which
    [scaled_prediction] turns into exactly 1.0. *)
Theorem dark_spectrum_scores_one `{statistic_common} (m : ndarray npfloat) :
  0 < size m ->
  no_high_cell m ->
  remove_anomalies [] contamination = Ok [] ->
  get_max_values [] top_k = Ok [] ->
  max_distance_avg m = Ok NaN
  /\ Forall (fun b => b = false)
       (data (donut (distances_from_center (height m) (width m)) NaN))
  /\ (exists d, pattern_recognition m = Ok d /\ d =~ zero)
  /\ score m = Ok one.
Proof.
  intros Hsize Hdark Hra Hgm.
  destruct (zero_over_count Hsize) as [q [Hq Hq0]].
  pose proof (dark_density Hdark Hra Hgm) as Hd. rewrite Hq in Hd.
  split; [now apply dark_radius|].
  split; [apply donut_nan|].
  split.
  - exists (Fin q). split; [exact Hd | exact Hq0].
  - unfold score. rewrite Hd. simpl.
    apply scaled_prediction_low. rewrite Hq0. reflexivity.
Qed.

Lemma dark_spectrum_scores_one_witness :
  @score sample_helpers dark_spectrum = Ok one.
Proof.
  apply (@dark_spectrum_scores_one sample_helpers dark_spectrum).
  - unfold size; simpl; lia.
  - repeat constructor.
  - reflexivity.
  - reflexivity.
Defined.

(** C9 as worded fails on the spectrum that has no cell: nothing exceeds
    0.7 and the helpers pass the empty sequence through, but the density is
    0/0, NaN, and the score is not 1.0. *)
Lemma empty_spectrum_density_nan :
  no_high_cell empty_spectrum
  /\ @remove_anomalies sample_helpers [] contamination = Ok []
  /\ @get_max_values sample_helpers [] top_k = Ok []
  /\ ~ ((exists d, @pattern_recognition sample_helpers empty_spectrum = Ok d
                   /\ d =~ zero)
        /\ @score sample_helpers empty_spectrum = Ok one).
Proof.
  split; [constructor|]. split; [reflexivity|]. split; [reflexivity|].
  intros [_ Hs]. vm_compute in Hs. discriminate.
Qed.

(** C6, amended. For a magnitude spectrum that has at least one cell and no
    cell above 0.7, the distance set is empty and goes through the outlier
    filter, the radius estimation and the density stage without any error,
    as long as the two helpers accept the empty sequence; the final score
    is a number of [0, 1]. *)
Theorem dark_spectrum_propagates `{statistic_common} (m : ndarray npfloat) :
  0 < size m ->
  no_high_cell m ->
  remove_anomalies [] contamination = Ok [] ->
  get_max_values [] top_k = Ok [] ->
  distance_set (distances_from_center (height m) (width m)) (high_mask m) = []
  /\ exists r d s,
       max_distance_avg m = Ok r
       /\ pattern_recognition m = Ok d
       /\ score m = Ok s
       /\ in_unit_interval s.
Proof.
  intros Hsize Hdark Hra Hgm.
  destruct (zero_over_count Hsize) as [q [Hq Hq0]].
  pose proof (dark_density Hdark Hra Hgm) as Hd. rewrite Hq in Hd.
  split; [now apply dark_distance_set|].
  exists NaN, (Fin q), one.
  split; [now apply dark_radius|]. split; [exact Hd|]. split.
  - unfold score. rewrite Hd. simpl.
    apply scaled_prediction_low. rewrite Hq0. reflexivity.
  - simpl. lra.
Qed.

Lemma dark_spectrum_propagates_witness :
  exists r d s,
    @max_distance_avg sample_helpers dark_spectrum = Ok r
    /\ @pattern_recognition sample_helpers dark_spectrum = Ok d
    /\ @score sample_helpers dark_spectrum = Ok s
    /\ in_unit_interval s.
Proof.
  apply (@dark_spectrum_propagates sample_helpers dark_spectrum).
  - unfold size; simpl; lia.
  - repeat constructor.
  - reflexivity.
  - reflexivity.
Defined.

(** C6 as worded fails on the empty spectrum: no error is raised, but the
    final score is NaN. *)
Lemma empty_spectrum_score_nan :
  no_high_cell empty_spectrum
  /\ @score sample_helpers empty_spectrum = Ok NaN
  /\ ~ (exists s, @score sample_helpers empty_spectrum = Ok s
                  /\ is_nan s = false).
Proof.
  split; [constructor|]. split; [reflexivity|].
  intros [s [Hs Hn]]. vm_compute in Hs. inversion Hs; subst. discriminate.
Qed.

(** ** No inner cell *)

(** C2, amended. When all_points is 0, [pattern_recognition] raises no
    division error, and the raw density it returns is NaN: the quotient is
    0/0 and no fallback value takes its place. *)
Theorem no_inner_cell_density_nan `{statistic_common}
    (m : ndarray npfloat) (r : npfloat) :
  max_distance_avg m = Ok r ->
  all_points m (donut (distances_from_center (height m) (width m)) r) = 0%Z ->
  pattern_recognition m = Ok NaN.
Proof.
  intros Hr Hall. rewrite (pattern_recognition_radius _ Hr). unfold density.
  pose proof (intense_le_all m r) as Hle.
  pose proof (intense_points_nonneg (high_mask m)
                (donut (distances_from_center (height m) (width m)) r)) as H0.
  cbv zeta in Hle. rewrite Hall in Hle |- *.
  replace (intense_points _ _) with 0%Z by lia.
  reflexivity.
Qed.

Lemma no_inner_cell_density_nan_witness :
  @pattern_recognition sample_helpers center_spectrum = Ok NaN.
Proof.
  apply (@no_inner_cell_density_nan sample_helpers center_spectrum zero);
    reflexivity.
Defined.

(** C2 as worded fails on the 2 x 2 spectrum whose only bright cell sits on
    the center: the radius is 0, every cell is outer, all_points is 0, and
    the density returned is not a number. *)
Lemma center_spectrum_no_fallback :
  @max_distance_avg sample_helpers center_spectrum = Ok zero
  /\ all_points center_spectrum (donut (distances_from_center 2 2) zero) = 0%Z
  /\ ~ (exists d, @pattern_recognition sample_helpers center_spectrum = Ok d
                  /\ is_nan d = false).
Proof.
  split; [reflexivity|]. split; [reflexivity|].
  intros [d [Hd Hn]]. vm_compute in Hd. inversion Hd; subst. discriminate.
Qed.

(** ** The scaled prediction *)

Lemma middle_piece (d : npfloat) :
  is_nan d = false ->
  (d <? low_density)%F = false -> (d >? high_density)%F = false ->
  (low_density <=? d)%F = true /\ (d <=? high_density)%F = true.
Proof.
  destruct d as [| |q|]; simpl; try discriminate.
  unfold Qlt_bool. intros _ Hlo Hhi.
  apply negb_false_iff in Hlo, Hhi. now split.
Qed.

Lemma scaled_prediction_in_unit_interval `{statistic_common} (d : npfloat) :
  is_nan d = false ->
  interpolates_into_unit_interval ->
  exists s, scaled_prediction d = Ok s /\ in_unit_interval s.
Proof.
  intros Hd Hlaw. unfold scaled_prediction.
  destruct (d <? low_density)%F eqn:Hlo.
  - exists one. split; [reflexivity|]. simpl. lra.
  - destruct (d >? high_density)%F eqn:Hhi.
    + exists zero. split; [reflexivity|]. simpl. lra.
    + destruct (middle_piece d Hd Hlo Hhi) as [H1 H2]. now apply Hlaw.
Qed.

Lemma in_unit_interval_not_nan (d : npfloat) :
  in_unit_interval d -> is_nan d = false.
Proof. destruct d; simpl; intros; try contradiction; reflexivity. Qed.

Lemma modelled_interpolates (k : nat) :
  @interpolates_into_unit_interval (Modelled.helpers k).
Proof.
  intros [| |q|]; simpl; try discriminate.
  intros Hlo Hhi. apply Qle_bool_imp_le in Hlo, Hhi.
  eexists; split; [reflexivity|]. simpl.
  setoid_replace ((q + - 0) / ((4 # 10) + - 0))%Q with (q * (10 # 4))%Q
    by (unfold Qdiv; change (/ ((4 # 10) + - 0))%Q with (10 # 4)%Q; ring).
  split; lra.
Qed.

(** C1, amended. For every magnitude spectrum that keeps at least one
    inner cell (all_points > 0), once the radius stage has returned and
    with a [linear_normalize] that sends the densities of [0.05, 0.4] into
    [0, 1], the caller receives a number of [0, 1]. *)
Theorem score_in_unit_interval `{statistic_common}
    (m : ndarray npfloat) (r : npfloat) :
  max_distance_avg m = Ok r ->
  (0 < all_points m (donut (distances_from_center (height m) (width m)) r))%Z ->
  interpolates_into_unit_interval ->
  exists s, score m = Ok s /\ in_unit_interval s.
Proof.
  intros Hr Hall Hlaw. unfold score.
  rewrite (pattern_recognition_radius _ Hr). simpl.
  apply scaled_prediction_in_unit_interval; [|exact Hlaw].
  apply in_unit_interval_not_nan. unfold density.
  apply ratio_in_unit_interval; [|exact Hall].
  split; [apply intense_points_nonneg | apply intense_le_all].
Qed.

Lemma score_in_unit_interval_witness :
  exists s, @score sample_helpers offset_spectrum = Ok s /\ in_unit_interval s.
Proof.
  apply (@score_in_unit_interval sample_helpers offset_spectrum two).
  - vm_compute. reflexivity.
  - vm_compute. reflexivity.
  - apply modelled_interpolates.
Defined.

(** C1 as worded fails on the 2 x 2 spectrum whose only bright cell sits on
    the center: the density is 0/0 and the score is NaN. *)
Lemma center_spectrum_score_nan :
  @score sample_helpers center_spectrum = Ok NaN
  /\ ~ (exists s, @score sample_helpers center_spectrum = Ok s
                  /\ in_unit_interval s).
Proof.
  split; [reflexivity|].
  intros [s [Hs Hi]]. vm_compute in Hs. inversion Hs; subst. exact Hi.
Qed.

(** C3, as the code has it. [scaled_prediction] returns 1.0 for a density
    strictly below 0.05 and 0.0 for a density strictly above 0.4; for a
    density of [0.05, 0.4], both ends included, it returns what
    [linear_normalize] returns for the bounds 0.0 and 0.4, with no
    inversion at the call.  With the linear utility of the design document
    that is density / 0.4: 0.125 at 0.05 and 1.0 at 0.4, and not the
    1 - density / 0.4 that the two saturated pieces call for, except at
    0.2 where the two agree. *)
Theorem scaled_prediction_not_inverted (k : nat) (d : npfloat) :
  let sp := @scaled_prediction (Modelled.helpers k) in
  ((d <? low_density)%F = true -> sp d = Ok one)
  /\ ((d >? high_density)%F = true -> sp d = Ok zero)
  /\ ((low_density <=? d)%F = true -> (d <=? high_density)%F = true ->
      sp d = Modelled.linear_normalize d zero high_density
      /\ exists v, sp d = Ok v /\ v =~ (d / high_density)%F
                   /\ (v =~ (one - d / high_density)%F -> d =~ Fin (2 # 10)))
  /\ (exists v, sp low_density = Ok v /\ v =~ Fin (1 # 8)
                /\ ~ v =~ (one - low_density / high_density)%F)
  /\ (exists v, sp high_density = Ok v /\ v =~ one
                /\ ~ v =~ (one - high_density / high_density)%F).
Proof.
  intros sp. unfold sp, scaled_prediction.
  split; [intros ->; reflexivity|].
  split.
  { destruct d as [| |q|]; simpl; try discriminate; [|reflexivity].
    unfold Qlt_bool. intros Hhi. apply negb_true_iff in Hhi.
    destruct (Qle_bool (5 # 100) q) eqn:Hlo; simpl; [now rewrite Hhi|].
    exfalso.
    assert (~ (q <= 4 # 10)%Q) as Hq
      by (intros Hc; apply Qle_bool_iff in Hc; congruence).
    assert (~ ((5 # 100) <= q)%Q) as Hq'
      by (intros Hc; apply Qle_bool_iff in Hc; congruence).
    lra. }
  split.
  { destruct d as [| |q|]; simpl; try discriminate.
    unfold Qlt_bool. intros Hlo Hhi. rewrite Hlo, Hhi. simpl.
    split; [reflexivity|]. eexists; split; [reflexivity|].
    simpl. unfold Qdiv.
    change (/ ((4 # 10) + - 0))%Q with (10 # 4)%Q.
    change (/ (4 # 10))%Q with (10 # 4)%Q.
    split; [ring|]. intros Heq.
    assert ((q + - 0) * (10 # 4) == q * (10 # 4))%Q as Hr by ring.
    rewrite Hr in Heq. lra. }
  split.
  - eexists. split; [reflexivity|]. split; [reflexivity|].
    simpl. intros Heq. discriminate Heq.
  - eexists. split; [reflexivity|]. split; [reflexivity|].
    simpl. intros Heq. discriminate Heq.
Qed.

Lemma scaled_prediction_not_inverted_witness :
  @scaled_prediction sample_helpers (Fin (1 # 100)) = Ok one
  /\ @scaled_prediction sample_helpers (Fin (1 # 2)) = Ok zero
  /\ exists v, @scaled_prediction sample_helpers (Fin (1 # 10)) = Ok v
               /\ v =~ (Fin (1 # 10) / high_density)%F
               /\ (v =~ (one - Fin (1 # 10) / high_density)%F
                   -> Fin (1 # 10) =~ Fin (2 # 10)).
Proof.
  split; [|split].
  - apply (scaled_prediction_not_inverted 2 (Fin (1 # 100))). reflexivity.
  - apply (scaled_prediction_not_inverted 2 (Fin (1 # 2))). reflexivity.
  - apply (scaled_prediction_not_inverted 2 (Fin (1 # 10))); reflexivity.
Defined.

(** ** The outlier filter *)

Lemma subseq_nil_l {A : Type} (l : list A) : subseq [] l.
Proof. induction l; constructor; assumption. Qed.

Lemma subseq_refl {A : Type} (l : list A) : subseq l l.
Proof. induction l; constructor; assumption. Qed.

Lemma subseq_length {A : Type} (l1 l2 : list A) :
  subseq l1 l2 -> length l1 <= length l2.
Proof. induction 1; simpl; lia. Qed.

(** Keeping the elements whose companion passes a test drops elements and
    keeps the order. *)
Lemma subseq_keep {A B : Type} (f : A * B -> bool) (l : list A) (t : list B) :
  subseq (map fst (filter f (combine l t))) l.
Proof.
  revert t; induction l as [|x l IH]; intros t.
  - constructor.
  - destruct t as [|b t]; simpl; [apply subseq_nil_l|].
    destruct (f (x, b)); simpl; constructor; apply IH.
Qed.

(** C7. With the outlier filter of the design document, whatever the
    neighbourhood size: for every distance set, [remove_anomalies] with
    contamination 0.4 returns, without error, a subsequence of its input,
    which is therefore no longer than the input; the empty set gives the
    empty set. *)
Theorem remove_anomalies_subsequence (k : nat) (distances : list npfloat) :
  (exists filtered,
      Modelled.remove_anomalies k distances contamination = Ok filtered
      /\ subseq filtered distances
      /\ length filtered <= length distances)
  /\ Modelled.remove_anomalies k [] contamination = Ok [].
Proof.
  split; [|reflexivity].
  unfold Modelled.remove_anomalies.
  destruct (length distances <=? k).
  - exists distances. split; [reflexivity|]. split; [apply subseq_refl | lia].
  - eexists. split; [reflexivity|].
    split; [apply subseq_keep | apply subseq_length, subseq_keep].
Qed.

(** ** normalize *)

(** C8. For every array whose minimum equals its maximum, [normalize]
    returns the all-ones array of the length of the array and divides
    nothing. *)
Theorem normalize_degenerate (arr : list npfloat) (arr_min arr_max : npfloat) :
  np_min arr = Ok arr_min ->
  np_max arr = Ok arr_max ->
  feqb arr_min arr_max = true ->
  normalize arr = Ok (np_ones (length arr))
  /\ Forall (fun v => v = one) (np_ones (length arr)).
Proof.
  intros Hmin Hmax Heq. unfold normalize.
  rewrite Hmin, Hmax. simpl. rewrite Heq.
  split; [reflexivity|].
  unfold np_ones. apply Forall_forall. intros v Hv.
  now apply repeat_spec in Hv.
Qed.

Lemma normalize_degenerate_witness :
  normalize [Fin 2; Fin 2; Fin 2] = Ok [one; one; one].
Proof.
  apply (@normalize_degenerate [Fin 2; Fin 2; Fin 2] (Fin 2) (Fin 2));
    reflexivity.
Defined.

Lemma fold_fmin_constant (q : Q) (n : nat) :
  fold_left fmin (repeat (Fin q) n) (Fin q) = Fin q.
Proof.
  induction n as [|n IH]; [reflexivity|]. simpl.
  unfold fmin at 2. simpl. unfold Qlt_bool.
  assert (Qle_bool q q = true) as -> by (apply Qle_bool_iff; apply Qle_refl).
  exact IH.
Qed.

Lemma fold_fmax_constant (q : Q) (n : nat) :
  fold_left fmax (repeat (Fin q) n) (Fin q) = Fin q.
Proof.
  induction n as [|n IH]; [reflexivity|]. simpl.
  unfold fmax at 2. simpl. unfold Qlt_bool.
  assert (Qle_bool q q = true) as -> by (apply Qle_bool_iff; apply Qle_refl).
  exact IH.
Qed.

(** A constant array that is not empty is such an array. *)
Lemma normalize_constant (q : Q) (n : nat) :
  normalize (repeat (Fin q) (S n)) = Ok (np_ones (S n)).
Proof.
  unfold normalize. simpl.
  rewrite fold_fmin_constant, fold_fmax_constant. simpl.
  rewrite Qeq_bool_refl. now rewrite repeat_length.
Qed.

(** An empty array has no minimum: [numpy.min] raises. *)
Lemma normalize_empty : normalize [] = Raise ValueError.
Proof. reflexivity. Qed.
